(** * A shallow embedding of the Crosshair token service ([src/api.py])

    The single table [tokens] (primary key [token]) is a finite map from the
    token string to its row.  Timestamps ([time.time()], the [REAL] column
    [expires_at]) are rationals [Q]; every handler receives the clock value it
    reads as an explicit argument, and [generate] receives the 12 bytes that
    [secrets.token_hex(12)] draws.  A handler either raises an
    [HTTPException] (the table is then unchanged: every handler raises before
    it writes) or returns its JSON response together with the new table. *)

From Stdlib Require Import QArith Qminmax ZArith Lqa Strings.String Strings.Ascii Strings.Byte.
From stdpp Require Import base gmap strings list fin_maps.

Open Scope string_scope.

(** ** Rows, errors and responses *)

(** A row of [tokens]: [hwid TEXT], [expires_at REAL], [revoked INTEGER]
    (only ever 0 or 1, read with Python truthiness). *)
Record Token := mkToken {
  hwid : option string;
  expires_at : option Q;
  revoked : bool
}.

Record HTTPException := mkExc {
  status_code : Z;
  detail : string
}.

(** The JSON bodies the endpoints return. *)
Inductive Response :=
| RStatus (status : string)
| RGenerate (token : string) (plan : string) (expires_at : option Q)
| RInspect (token : string) (hwid : option string) (revoked : bool)
           (expires_at : option Q) (seconds_remaining : option Z).

Inductive result :=
| Ok (resp : Response) (db : gmap string Token)
| Err (e : HTTPException).

(** ** Python helpers *)

(** Truthiness of a float: [0.0] is false. *)
Definition truthy (q : Q) : bool := negb (Qeq_bool q 0).

(** [int(x)] on a float truncates toward zero. *)
Definition py_int (q : Q) : Z := Z.quot (Qnum q) (Zpos (Qden q)).

(** [str.lower] / [str.upper], on the ASCII letters. *)
Definition lower_ascii (c : ascii) : ascii :=
  let n := nat_of_ascii c in
  if (65 <=? n)%nat && (n <=? 90)%nat then ascii_of_nat (n + 32) else c.

Definition upper_ascii (c : ascii) : ascii :=
  let n := nat_of_ascii c in
  if (97 <=? n)%nat && (n <=? 122)%nat then ascii_of_nat (n - 32) else c.

Fixpoint str_map (f : ascii -> ascii) (s : string) : string :=
  match s with
  | EmptyString => EmptyString
  | String c s' => String (f c) (str_map f s')
  end.

Definition lower (s : string) : string := str_map lower_ascii s.
Definition upper (s : string) : string := str_map upper_ascii s.

(** [', '.join(xs)] *)
Fixpoint join (sep : string) (xs : list string) : string :=
  match xs with
  | [] => ""
  | [x] => x
  | x :: xs' => x ++ sep ++ join sep xs'
  end.

(** [secrets.token_hex(n)]: two lowercase hex digits per random byte. *)
Definition hexdigit (n : nat) : ascii :=
  if (n <? 10)%nat then ascii_of_nat (48 + n) else ascii_of_nat (87 + n).

Fixpoint token_hex (rnd : list byte) : string :=
  match rnd with
  | [] => ""
  | b :: rnd' =>
      let n := Byte.to_nat b in
      String (hexdigit (n / 16)) (String (hexdigit (n mod 16)) (token_hex rnd'))
  end.

(** ** Module-level configuration *)

Definition DB := "/data/tokens.db".

(** [ADMIN_KEY = os.getenv("ADMIN_KEY", "olly6969")], read at import time.
    Nothing else in the module uses it. *)
Definition ADMIN_KEY (environ_at_import : gmap string string) : string :=
  match environ_at_import !! "ADMIN_KEY" with
  | Some k => k
  | None => "olly6969"
  end.

(** [PLAN_DURATIONS], in the dict's insertion order. *)
Definition PLAN_DURATIONS : list (string * option Z) :=
  [ ("1d", Some (1 * 86400)%Z); ("3d", Some (3 * 86400)%Z);
    ("1w", Some (7 * 86400)%Z); ("2w", Some (14 * 86400)%Z);
    ("3w", Some (21 * 86400)%Z); ("6w", Some (42 * 86400)%Z);
    ("1m", Some (30 * 86400)%Z); ("2m", Some (60 * 86400)%Z);
    ("3m", Some (90 * 86400)%Z); ("6m", Some (180 * 86400)%Z);
    ("9m", Some (270 * 86400)%Z);
    ("1y", Some (365 * 86400)%Z); ("2y", Some (730 * 86400)%Z);
    ("infinite", None) ].

(** [PLAN_DURATIONS[plan]] ([None] when [plan not in PLAN_DURATIONS]). *)
Fixpoint plan_lookup (plan : string) (tbl : list (string * option Z))
  : option (option Z) :=
  match tbl with
  | [] => None
  | (k, d) :: tbl' => if String.eqb k plan then Some d else plan_lookup plan tbl'
  end.

Definition plan_keys : list string := map fst PLAN_DURATIONS.

(** ** Request bodies *)

Record VerifyRequest := mkVerifyRequest { vr_token : string; vr_hwid : string }.
Record GenerateRequest := mkGenerateRequest { gr_plan : string }.

(** ** Admin authentication *)

(** [require_admin]: the [X-Admin-Key] header (absent = [None]) against
    [os.environ.get("ADMIN_KEY")], read at request time; [!=] between two
    optional strings.  [None] = the dependency passes. *)
Definition require_admin (environ : gmap string string) (x_admin_key : option string)
  : option HTTPException :=
  let key := environ !! "ADMIN_KEY" in
  if negb (bool_decide (x_admin_key = key))
  then Some (mkExc 401 "Unauthorized")
  else None.

(** ** Handlers *)

(** [if expires_at and time.time() > expires_at] *)
Definition expired_check (now : Q) (expires_at : option Q) : bool :=
  match expires_at with
  | Some e => truthy e && negb (Qle_bool now e)
  | None => false
  end.

(** [POST /verify] *)
Definition verify (now : Q) (data : VerifyRequest) (db : gmap string Token) : result :=
  match db !! vr_token data with
  | None => Err (mkExc 401 "Invalid token")
  | Some row =>
      if revoked row then Err (mkExc 403 "Token revoked")
      else if expired_check now (expires_at row) then Err (mkExc 403 "Token expired")
      else match hwid row with
           | None =>
               (* UPDATE tokens SET hwid = ? WHERE token = ? *)
               Ok (RStatus "ok")
                  (<[vr_token data := mkToken (Some (vr_hwid data)) (expires_at row)
                                        (revoked row)]> db)
           | Some bound_hwid =>
               if negb (String.eqb bound_hwid (vr_hwid data))
               then Err (mkExc 403 "HWID mismatch")
               else Ok (RStatus "ok") db
           end
  end.

Definition invalid_plan_detail : string :=
  "Invalid plan. Valid plans: " ++ join ", " plan_keys.

(** The token string [f"OLLY-{secrets.token_hex(12).upper()}"], for the
    drawn bytes. *)
Definition fresh_token (rnd : list byte) : string := "OLLY-" ++ upper (token_hex rnd).

(** [POST /generate].  The [INSERT] into the primary-key column raises
    [sqlite3.IntegrityError] when the drawn token is already stored; FastAPI
    answers an unhandled exception with a 500. *)
Definition generate (now : Q) (rnd : list byte) (data : GenerateRequest)
    (db : gmap string Token) : result :=
  let plan := lower (gr_plan data) in
  match plan_lookup plan PLAN_DURATIONS with
  | None => Err (mkExc 400 invalid_plan_detail)
  | Some duration =>
      let token := fresh_token rnd in
      let expires_at := match duration with
                        | None => None
                        | Some d => Some (now + inject_Z d)%Q
                        end in
      match db !! token with
      | Some _ => Err (mkExc 500 "Internal Server Error")
      | None =>
          Ok (RGenerate token plan expires_at)
             (<[token := mkToken None expires_at false]> db)
      end
  end.

(** [POST /admin/verify] *)
Definition admin_verify (environ : gmap string string) (x_admin_key : option string)
    (now : Q) (token : string) (db : gmap string Token) : result :=
  match require_admin environ x_admin_key with
  | Some e => Err e
  | None =>
      match db !! token with
      | None => Err (mkExc 404 "Token not found")
      | Some row =>
          let seconds_remaining :=
            match expires_at row with
            | Some e => if truthy e then Some (Z.max 0 (py_int (e - now)%Q)) else None
            | None => None
            end in
          Ok (RInspect token (hwid row) (revoked row) (expires_at row) seconds_remaining) db
      end
  end.

(** [UPDATE tokens SET ... WHERE token = ?]: touches the row if there is one. *)
Definition update_row (f : Token -> Token) (token : string) (db : gmap string Token)
  : gmap string Token :=
  match db !! token with
  | Some row => <[token := f row]> db
  | None => db
  end.

(** [POST /admin/unbind] *)
Definition admin_unbind (environ : gmap string string) (x_admin_key : option string)
    (token : string) (db : gmap string Token) : result :=
  match require_admin environ x_admin_key with
  | Some e => Err e
  | None =>
      Ok (RStatus "ok")
         (update_row (fun row => mkToken None (expires_at row) (revoked row)) token db)
  end.

(** [POST /admin/revoke] *)
Definition admin_revoke (environ : gmap string string) (x_admin_key : option string)
    (token : string) (db : gmap string Token) : result :=
  match require_admin environ x_admin_key with
  | Some e => Err e
  | None =>
      Ok (RStatus "revoked")
         (update_row (fun row => mkToken (hwid row) (expires_at row) true) token db)
  end.

(** ** Sequences of requests *)

Inductive Request :=
| ReqVerify (now : Q) (data : VerifyRequest)
| ReqGenerate (now : Q) (rnd : list byte) (data : GenerateRequest)
| ReqAdminVerify (environ : gmap string string) (x_admin_key : option string)
                 (now : Q) (token : string)
| ReqAdminUnbind (environ : gmap string string) (x_admin_key : option string)
                 (token : string)
| ReqAdminRevoke (environ : gmap string string) (x_admin_key : option string)
                 (token : string).

Definition handle (req : Request) (db : gmap string Token) : result :=
  match req with
  | ReqVerify now data => verify now data db
  | ReqGenerate now rnd data => generate now rnd data db
  | ReqAdminVerify env k now tok => admin_verify env k now tok db
  | ReqAdminUnbind env k tok => admin_unbind env k tok db
  | ReqAdminRevoke env k tok => admin_revoke env k tok db
  end.

(** The table after a request: an exception leaves it as it was. *)
Definition step (req : Request) (db : gmap string Token) : gmap string Token :=
  match handle req db with
  | Ok _ db' => db'
  | Err _ => db
  end.

Fixpoint run (reqs : list Request) (db : gmap string Token) : gmap string Token :=
  match reqs with
  | [] => db
  | r :: reqs' => run reqs' (step r db)
  end.

(** The clock a request reads: [time.time()] is not before the epoch. *)
Definition clock_ok (req : Request) : bool :=
  match req with
  | ReqVerify now _ | ReqGenerate now _ _ | ReqAdminVerify _ _ now _ => Qle_bool 0 now
  | _ => true
  end.

(** Tables reachable from the empty table created by [init_db]. *)
Inductive reachable : gmap string Token -> Prop :=
| reachable_init : reachable ∅
| reachable_step req db : reachable db -> clock_ok req = true -> reachable (step req db).

(** ** Expiry as the spec words it: non-null and strictly in the past *)

Definition is_expired (now : Q) (expires_at : option Q) : bool :=
  match expires_at with
  | Some e => negb (Qle_bool now e)
  | None => false
  end.

(** Every stored expiry is a positive timestamp. *)
Definition expiries_positive (db : gmap string Token) : Prop :=
  forall k row e, db !! k = Some row -> expires_at row = Some e -> (0 < e)%Q.

(** ** General lemmas *)

Lemma truthy_pos (e : Q) : (0 < e)%Q -> truthy e = true.
Proof.
  intros He. unfold truthy. destruct (Qeq_bool e 0) eqn:E; [|reflexivity].
  apply Qeq_bool_iff in E. rewrite E in He. discriminate.
Qed.

Lemma expired_check_pos (now : Q) (ea : option Q) :
  (forall e, ea = Some e -> (0 < e)%Q) -> expired_check now ea = is_expired now ea.
Proof.
  intros H. destruct ea as [e|]; [|reflexivity].
  simpl. rewrite truthy_pos by (apply H; reflexivity). reflexivity.
Qed.

Lemma update_row_lookup (f : Token -> Token) (token k : string) (db : gmap string Token) :
  update_row f token db !! k =
  if decide (token = k) then f <$> db !! k else db !! k.
Proof.
  unfold update_row. destruct (db !! token) as [row|] eqn:E;
    destruct (decide (token = k)); subst; simplify_map_eq; auto.
Qed.

Lemma plan_lookup_in (plan : string) (tbl : list (string * option Z)) (d : option Z) :
  plan_lookup plan tbl = Some d -> In (plan, d) tbl.
Proof.
  induction tbl as [|[k d'] tbl IH]; simpl; [discriminate|].
  destruct (String.eqb k plan) eqn:E.
  - apply String.eqb_eq in E as ->. intros [= ->]. left; reflexivity.
  - intros H. right. apply IH, H.
Qed.

Lemma durations_positive (plan : string) (d : Z) :
  plan_lookup plan PLAN_DURATIONS = Some (Some d) -> (0 < d)%Z.
Proof.
  intros H. apply plan_lookup_in in H.
  assert (Hall : Forall (fun kd => match snd kd with Some d => (0 < d)%Z | None => True end)
                        PLAN_DURATIONS) by (repeat constructor).
  rewrite List.Forall_forall in Hall. apply (Hall _ H).
Qed.

Lemma step_expiries_positive (req : Request) (db : gmap string Token) :
  clock_ok req = true -> expiries_positive db -> expiries_positive (step req db).
Proof.
  intros Hclk Hdb k row e. unfold step, handle.
  destruct req as [now data|now rnd data|env key now tok|env key tok|env key tok].
  - unfold verify. destruct (db !! vr_token data) as [r|] eqn:Er; [|apply Hdb].
    destruct (revoked r); [apply Hdb|].
    destruct (expired_check now (expires_at r)); [apply Hdb|].
    destruct (hwid r) as [b|]; [destruct (negb _); apply Hdb|].
    rewrite lookup_insert. destruct (decide _) as [<-|]; [|apply Hdb].
    intros [= <-]; simpl. eapply Hdb; eauto.
  - unfold generate. destruct (plan_lookup _ _) as [duration|] eqn:Ed; [|apply Hdb].
    destruct (db !! fresh_token rnd); [apply Hdb|].
    rewrite lookup_insert. destruct (decide _) as [<-|]; [|apply Hdb].
    intros [= <-]; simpl. destruct duration as [d|]; [|discriminate].
    intros [= <-]. apply durations_positive in Ed. simpl in Hclk.
    apply Qle_bool_iff in Hclk.
    assert (0 < inject_Z d)%Q by (unfold Qlt; simpl; lia).
    lra.
  - unfold admin_verify. destruct (require_admin env key); [apply Hdb|].
    destruct (db !! tok); apply Hdb.
  - unfold admin_unbind. destruct (require_admin env key); [apply Hdb|].
    rewrite update_row_lookup. destruct (decide _); [|apply Hdb].
    destruct (db !! k) as [r|] eqn:Er; [|discriminate].
    intros [= <-]; simpl. eapply Hdb; eauto.
  - unfold admin_revoke. destruct (require_admin env key); [apply Hdb|].
    rewrite update_row_lookup. destruct (decide _); [|apply Hdb].
    destruct (db !! k) as [r|] eqn:Er; [|discriminate].
    intros [= <-]; simpl. eapply Hdb; eauto.
Qed.

Lemma reachable_expiries_positive (db : gmap string Token) :
  reachable db -> expiries_positive db.
Proof.
  induction 1 as [|req db _ IH Hclk].
  - intros k row e H. rewrite lookup_empty in H. discriminate.
  - by apply step_expiries_positive.
Qed.

Lemma reachable_expired_check (db : gmap string Token) (tok : string) (row : Token) (now : Q) :
  reachable db -> db !! tok = Some row ->
  expired_check now (expires_at row) = is_expired now (expires_at row).
Proof.
  intros Hr Hrow. apply expired_check_pos. intros e He.
  eapply reachable_expiries_positive; eauto.
Qed.

Lemma expired_check_not_expired (now : Q) (ea : option Q) :
  is_expired now ea = false -> expired_check now ea = false.
Proof.
  destruct ea as [e|]; simpl; [|reflexivity].
  intros ->. apply andb_false_r.
Qed.

(** * Verify *)

(** C1: on an existing, non-revoked, non-expired token, [verify] binds a
    null hwid to the supplied value and persists it, rejects a different
    bound hwid with [HWID mismatch] (403), and accepts the bound hwid without
    touching the table. *)
Theorem verify_hwid_binding (db : gmap string Token) (now : Q) (tok h : string)
    (row : Token) :
  db !! tok = Some row -> revoked row = false -> is_expired now (expires_at row) = false ->
  (hwid row = None ->
     verify now (mkVerifyRequest tok h) db =
     Ok (RStatus "ok") (<[tok := mkToken (Some h) (expires_at row) (revoked row)]> db)) /\
  (forall b, hwid row = Some b -> b <> h ->
     verify now (mkVerifyRequest tok h) db = Err (mkExc 403 "HWID mismatch")) /\
  (hwid row = Some h -> verify now (mkVerifyRequest tok h) db = Ok (RStatus "ok") db).
Proof.
  intros Hrow Hrev Hexp. apply expired_check_not_expired in Hexp.
  unfold verify; simpl. rewrite Hrow, Hrev, Hexp.
  split; [|split].
  - intros ->. reflexivity.
  - intros b -> Hne. apply String.eqb_neq in Hne. rewrite Hne. reflexivity.
  - intros ->. rewrite String.eqb_refl. reflexivity.
Qed.

(** C2: the checks of [verify] run in the order existence, revoked,
    expired, hwid; each error is raised whatever the later fields hold (so a
    revoked and expired token is reported revoked, an expired token with a
    different hwid is reported expired), and a mismatch is reported only for
    an existing, non-revoked, non-expired token.  The table is one the
    service reached from its empty initial table. *)
Theorem verify_check_order (db : gmap string Token) (now : Q) (tok h : string) :
  reachable db ->
  (db !! tok = None ->
     verify now (mkVerifyRequest tok h) db = Err (mkExc 401 "Invalid token")) /\
  (forall row, db !! tok = Some row -> revoked row = true ->
     verify now (mkVerifyRequest tok h) db = Err (mkExc 403 "Token revoked")) /\
  (forall row, db !! tok = Some row -> revoked row = false ->
     is_expired now (expires_at row) = true ->
     verify now (mkVerifyRequest tok h) db = Err (mkExc 403 "Token expired")) /\
  (forall row b, db !! tok = Some row -> revoked row = false ->
     is_expired now (expires_at row) = false -> hwid row = Some b -> b <> h ->
     verify now (mkVerifyRequest tok h) db = Err (mkExc 403 "HWID mismatch")) /\
  (verify now (mkVerifyRequest tok h) db = Err (mkExc 403 "HWID mismatch") ->
     exists row b, db !! tok = Some row /\ revoked row = false /\
       is_expired now (expires_at row) = false /\ hwid row = Some b /\ b <> h).
Proof.
  intros Hr. unfold verify; simpl.
  split; [|split; [|split; [|split]]].
  - intros ->. reflexivity.
  - intros row -> ->. reflexivity.
  - intros row Hrow Hrev Hexp. rewrite Hrow, Hrev.
    rewrite (reachable_expired_check db tok row now Hr Hrow), Hexp. reflexivity.
  - intros row b Hrow Hrev Hexp Hb Hne.
    rewrite Hrow, Hrev, (reachable_expired_check db tok row now Hr Hrow), Hexp, Hb.
    apply String.eqb_neq in Hne. rewrite Hne. reflexivity.
  - destruct (db !! tok) as [row|] eqn:Hrow; [|discriminate].
    destruct (revoked row) eqn:Hrev; [discriminate|].
    rewrite (reachable_expired_check db tok row now Hr Hrow).
    destruct (is_expired now (expires_at row)) eqn:Hexp; [discriminate|].
    destruct (hwid row) as [b|] eqn:Hb; [|discriminate].
    destruct (String.eqb b h) eqn:Ebh; [discriminate|].
    intros _. exists row, b. apply String.eqb_neq in Ebh. auto.
Qed.

(** C6: on an existing, non-revoked token of a reachable table, [verify]
    fails with [Token expired] (403) exactly when [expires_at] is non-null
    and strictly before the current time; a null [expires_at] never
    expires. *)
Theorem verify_expired_iff (db : gmap string Token) (now : Q) (tok h : string)
    (row : Token) :
  reachable db -> db !! tok = Some row -> revoked row = false ->
  (verify now (mkVerifyRequest tok h) db = Err (mkExc 403 "Token expired") <->
   exists e, expires_at row = Some e /\ (e < now)%Q).
Proof.
  intros Hr Hrow Hrev. unfold verify; simpl. rewrite Hrow, Hrev.
  rewrite (reachable_expired_check db tok row now Hr Hrow).
  destruct (expires_at row) as [e|] eqn:Hea; simpl.
  - destruct (Qle_bool now e) eqn:Hle; simpl.
    + apply Qle_bool_iff in Hle. split.
      * destruct (hwid row) as [b|]; [destruct (negb _)|]; discriminate.
      * intros (e' & [= <-] & Hlt). exfalso. apply (Qlt_not_le e now); assumption.
    + split; [|reflexivity]. intros _. exists e. split; [reflexivity|].
      apply Qnot_le_lt. intros Hle'. apply Qle_bool_iff in Hle'. congruence.
  - split.
    + destruct (hwid row) as [b|]; [destruct (negb _)|]; discriminate.
    + intros (e & [=] & _).
Qed.

(** ** A concrete table: one "1d" token generated at time 1 *)

Definition sample_rnd : list byte :=
  [x4f; x4c; x4c; x59; x01; x23; x45; x67; x89; xab; xcd; xef].

Definition sample_tok : string := fresh_token sample_rnd.

Definition sample_row : Token := mkToken None (Some (1 + inject_Z 86400)%Q) false.

Definition sample_db : gmap string Token :=
  step (ReqGenerate 1 sample_rnd (mkGenerateRequest "1D")) ∅.

Lemma sample_db_reachable : reachable sample_db.
Proof. apply reachable_step; [constructor | reflexivity]. Qed.

Lemma sample_db_lookup : sample_db !! sample_tok = Some sample_row.
Proof. vm_compute. reflexivity. Qed.

Lemma verify_hwid_binding_witness :
  sample_db !! sample_tok = Some sample_row /\ revoked sample_row = false /\
  is_expired 2 (expires_at sample_row) = false /\
  verify 2 (mkVerifyRequest sample_tok "A") sample_db =
  Ok (RStatus "ok") (<[sample_tok := mkToken (Some "A") (expires_at sample_row)
                                      (revoked sample_row)]> sample_db).
Proof.
  split; [exact sample_db_lookup|]. split; [reflexivity|]. split; [reflexivity|].
  apply (verify_hwid_binding sample_db 2 sample_tok "A" sample_row);
    [exact sample_db_lookup | reflexivity | reflexivity | reflexivity].
Defined.

Lemma verify_check_order_witness :
  reachable sample_db /\
  verify 2 (mkVerifyRequest "OLLY-0" "A") sample_db = Err (mkExc 401 "Invalid token").
Proof.
  split; [exact sample_db_reachable|].
  apply (verify_check_order sample_db 2 "OLLY-0" "A" sample_db_reachable).
  vm_compute. reflexivity.
Defined.

Lemma verify_expired_iff_witness :
  reachable sample_db /\ sample_db !! sample_tok = Some sample_row /\
  revoked sample_row = false /\
  (verify 86402 (mkVerifyRequest sample_tok "A") sample_db = Err (mkExc 403 "Token expired") <->
   exists e, expires_at sample_row = Some e /\ (e < 86402)%Q).
Proof.
  split; [exact sample_db_reachable|]. split; [exact sample_db_lookup|].
  split; [reflexivity|].
  apply (verify_expired_iff sample_db 86402 sample_tok "A" sample_row
           sample_db_reachable sample_db_lookup); reflexivity.
Defined.

(** The scenario of the spec: bind "A", reject "B", accept "A" again. *)
Example verify_scenario :
  let db1 := step (ReqVerify 2 (mkVerifyRequest sample_tok "A")) sample_db in
  db1 !! sample_tok = Some (mkToken (Some "A") (expires_at sample_row) false) /\
  verify 3 (mkVerifyRequest sample_tok "B") db1 = Err (mkExc 403 "HWID mismatch") /\
  verify 4 (mkVerifyRequest sample_tok "A") db1 = Ok (RStatus "ok") db1.
Proof. vm_compute. repeat split; reflexivity. Qed.

(** * Admin authentication *)

(** With [ADMIN_KEY] set to [k] in the environment, [require_admin] passes
    exactly the header [k]. *)
Lemma require_admin_set (environ : gmap string string) (k : string) (hdr : option string) :
  environ !! "ADMIN_KEY" = Some k ->
  require_admin environ hdr = None <-> hdr = Some k.
Proof.
  intros Hk. unfold require_admin. rewrite Hk.
  destruct (bool_decide_reflect (hdr = Some k)) as [E|E]; simpl; split;
    intros H; try discriminate; auto; contradiction.
Qed.

(** C3 (failing input): with [ADMIN_KEY] unset in the environment, a
    request without [X-Admin-Key] passes [require_admin] (both sides are
    [None]), so [/admin/revoke] runs; the header with the module-level secret
    [ADMIN_KEY] (fallback "olly6969") is refused with 401. *)
Theorem require_admin_unset_no_header :
  require_admin ∅ None = None /\
  admin_revoke ∅ None sample_tok sample_db =
    Ok (RStatus "revoked") (<[sample_tok := mkToken None (expires_at sample_row) true]> sample_db) /\
  require_admin ∅ (Some (ADMIN_KEY ∅)) = Some (mkExc 401 "Unauthorized").
Proof. vm_compute. repeat split; reflexivity. Qed.

(** C4: when [ADMIN_KEY] is unset at request time, [require_admin] passes
    exactly the requests without [X-Admin-Key]; the module-level fallback
    "olly6969" (the value of [ADMIN_KEY] when it was also unset at import)
    is refused like any other header. *)
Theorem require_admin_unset (environ environ_at_import : gmap string string) :
  environ !! "ADMIN_KEY" = None ->
  (forall hdr, require_admin environ hdr = None <-> hdr = None) /\
  (environ_at_import !! "ADMIN_KEY" = None -> ADMIN_KEY environ_at_import = "olly6969") /\
  require_admin environ (Some "olly6969") = Some (mkExc 401 "Unauthorized").
Proof.
  intros Hk. unfold require_admin. rewrite Hk. split; [|split].
  - intros hdr. destruct hdr as [s|]; simpl; split; intros H; try discriminate; auto.
  - unfold ADMIN_KEY. intros ->. reflexivity.
  - reflexivity.
Qed.

Lemma require_admin_unset_witness :
  (∅ : gmap string string) !! "ADMIN_KEY" = None /\
  require_admin ∅ (Some "olly6969") = Some (mkExc 401 "Unauthorized").
Proof.
  split; [reflexivity|].
  apply (require_admin_unset ∅ ∅); reflexivity.
Defined.

(** * Admin inspection *)

Definition sample_environ : gmap string string := <["ADMIN_KEY" := "s3cret"]> ∅.

(** C8 (counterexample): a token generated with plan "1d" at time 1/2 and
    inspected at 86400: [expires_at - now] is 1/2, but [int()] truncates it
    and [seconds_remaining] is 0. *)
Lemma admin_verify_truncates :
  let db := step (ReqGenerate (1#2) sample_rnd (mkGenerateRequest "1d")) ∅ in
  admin_verify sample_environ (Some "s3cret") 86400 sample_tok db =
    Ok (RInspect sample_tok None false (Some (172801#2)) (Some 0%Z)) db /\
  ~ (inject_Z 0 == Qmax 0 ((172801#2) - 86400))%Q.
Proof.
  split.
  - vm_compute. reflexivity.
  - vm_compute. discriminate.
Qed.

(** C8: an authenticated inspection of a reachable table fails with 404
    when the token is absent; otherwise it returns the token, its hwid,
    revoked flag and [expires_at], and [seconds_remaining] = [max(0,
    int(expires_at - now))] (truncated toward zero) when [expires_at] is set,
    null otherwise, leaving the table unchanged. *)
Theorem admin_verify_spec (environ : gmap string string) (hdr : option string)
    (now : Q) (tok : string) (db : gmap string Token) :
  require_admin environ hdr = None -> reachable db ->
  (db !! tok = None -> admin_verify environ hdr now tok db = Err (mkExc 404 "Token not found")) /\
  (forall row, db !! tok = Some row ->
     admin_verify environ hdr now tok db =
     Ok (RInspect tok (hwid row) (revoked row) (expires_at row)
           (match expires_at row with
            | Some e => Some (Z.max 0 (Z.quot (Qnum (e - now)) (Zpos (Qden (e - now)))))
            | None => None
            end)) db).
Proof.
  intros Hauth Hr. unfold admin_verify. rewrite Hauth. split.
  - intros ->. reflexivity.
  - intros row Hrow. rewrite Hrow.
    destruct (expires_at row) as [e|] eqn:Hea; [|reflexivity].
    rewrite truthy_pos; [reflexivity|].
    eapply reachable_expiries_positive; eauto.
Qed.

Lemma admin_verify_spec_witness :
  require_admin sample_environ (Some "s3cret") = None /\ reachable sample_db /\
  admin_verify sample_environ (Some "s3cret") 2 sample_tok sample_db =
  Ok (RInspect sample_tok None false (Some (1 + inject_Z 86400)%Q) (Some 86399%Z)) sample_db.
Proof.
  split; [reflexivity|]. split; [exact sample_db_reachable|].
  destruct (admin_verify_spec sample_environ (Some "s3cret") 2 sample_tok sample_db)
    as [_ Hrow]; [reflexivity | exact sample_db_reachable |].
  rewrite (Hrow sample_row sample_db_lookup). vm_compute. reflexivity.
Defined.

(** * Unbind and revoke *)

Lemma update_row_idem (f : Token -> Token) (tok : string) (db : gmap string Token) :
  (forall row, f (f row) = f row) ->
  update_row f tok (update_row f tok db) = update_row f tok db.
Proof.
  intros Hf. unfold update_row. destruct (db !! tok) as [row|] eqn:E.
  - rewrite lookup_insert_eq, insert_insert_eq, Hf. reflexivity.
  - rewrite E. reflexivity.
Qed.

(** C9: for an authenticated caller, [/admin/unbind] and [/admin/revoke]
    always succeed; they null the hwid, resp. set [revoked], of the row if
    there is one and leave the table as it is otherwise; a second identical
    request returns the same response and leaves the same table. *)
Theorem admin_unbind_revoke_idempotent (environ : gmap string string)
    (hdr : option string) (tok : string) (db : gmap string Token) :
  require_admin environ hdr = None ->
  let unbind := ReqAdminUnbind environ hdr tok in
  let revoke := ReqAdminRevoke environ hdr tok in
  handle unbind db = Ok (RStatus "ok") (step unbind db) /\
  handle revoke db = Ok (RStatus "revoked") (step revoke db) /\
  (forall row, db !! tok = Some row ->
     step unbind db = <[tok := mkToken None (expires_at row) (revoked row)]> db /\
     step revoke db = <[tok := mkToken (hwid row) (expires_at row) true]> db) /\
  (db !! tok = None -> step unbind db = db /\ step revoke db = db) /\
  handle unbind (step unbind db) = handle unbind db /\
  handle revoke (step revoke db) = handle revoke db.
Proof.
  intros Hauth unbind revoke. subst unbind revoke.
  unfold step, handle, admin_unbind, admin_revoke. rewrite !Hauth.
  split; [reflexivity|]. split; [reflexivity|]. split; [|split].
  - intros row Hrow. unfold update_row. rewrite Hrow. split; reflexivity.
  - intros Hnone. unfold update_row. rewrite Hnone. split; reflexivity.
  - split; rewrite update_row_idem; reflexivity.
Qed.

Lemma admin_unbind_revoke_idempotent_witness :
  require_admin sample_environ (Some "s3cret") = None /\
  handle (ReqAdminUnbind sample_environ (Some "s3cret") sample_tok) sample_db =
  Ok (RStatus "ok") (step (ReqAdminUnbind sample_environ (Some "s3cret") sample_tok) sample_db).
Proof.
  split; [reflexivity|].
  apply (admin_unbind_revoke_idempotent sample_environ (Some "s3cret") sample_tok sample_db).
  reflexivity.
Defined.

(** * Table invariants *)

Definition hwid_change_allowed (req : Request) (k : string) (row row' : Token) : Prop :=
  (exists now h, req = ReqVerify now (mkVerifyRequest k h) /\ hwid row = None /\
     hwid row' = Some h /\ revoked row = false /\ is_expired now (expires_at row) = false) \/
  (exists environ hdr, req = ReqAdminUnbind environ hdr k /\
     require_admin environ hdr = None /\ hwid row' = None).

(** The row is the same after the request. *)
Ltac row_unchanged :=
  match goal with
  | Hk : ?db !! ?k = Some ?row |- exists row', ?db !! ?k = Some row' /\ _ =>
      exists row; split; [exact Hk | split; [auto | intros []; reflexivity]]
  end.

(** C10: requests are served one after another from the empty table
    [init_db] creates; for every reachable table and every request, the row
    stored under a token is still stored under it afterwards (nothing is
    deleted or renamed), a revoked row stays revoked, and its hwid changes
    only by the first-use binding of [verify] (null to the supplied value, on
    an existing, non-revoked, non-expired token) or by an authenticated
    [/admin/unbind] (to null). *)
Theorem table_invariants (db : gmap string Token) (req : Request) (k : string)
    (row : Token) :
  reachable db -> clock_ok req = true -> db !! k = Some row ->
  exists row', step req db !! k = Some row' /\
    (revoked row = true -> revoked row' = true) /\
    (hwid row' <> hwid row -> hwid_change_allowed req k row row').
Proof.
  intros Hr Hclk Hk. unfold step, handle.
  destruct req as [now data|now rnd data|env key now tok|env key tok|env key tok].
  - unfold verify. destruct (db !! vr_token data) as [r|] eqn:Er;
      [|row_unchanged].
    destruct (revoked r) eqn:Hrev;
      [row_unchanged|].
    destruct (expired_check now (expires_at r)) eqn:Hexp;
      [row_unchanged|].
    destruct (hwid r) as [b|] eqn:Hb;
      [destruct (negb _); row_unchanged|].
    destruct (decide (vr_token data = k)) as [<-|Hne].
    + rewrite Hk in Er. injection Er as <-.
      eexists. rewrite lookup_insert_eq. split; [reflexivity|]. simpl. split; [intros ?; congruence|].
      intros _. unfold hwid_change_allowed. left. exists now, (vr_hwid data). destruct data as [t h]; simpl in *.
      split; [reflexivity|]. split; [exact Hb|]. split; [reflexivity|]. split; [exact Hrev|].
      rewrite <- (reachable_expired_check db t row now Hr Hk). exact Hexp.
    + exists row. rewrite lookup_insert_ne by exact Hne.
      split; [exact Hk | split; [auto | intros []; reflexivity]].
  - unfold generate. destruct (plan_lookup _ _);
      [|row_unchanged].
    cbv zeta. destruct (db !! fresh_token rnd) eqn:Ef;
      [row_unchanged|].
    exists row. rewrite lookup_insert_ne by (intros E; rewrite E in Ef; congruence).
    split; [exact Hk | split; [auto | intros []; reflexivity]].
  - unfold admin_verify. exists row.
    destruct (require_admin env key); [|destruct (db !! tok)];
      (split; [exact Hk | split; [auto | intros []; reflexivity]]).
  - unfold admin_unbind. destruct (require_admin env key) eqn:Hauth;
      [row_unchanged|].
    rewrite update_row_lookup. destruct (decide (tok = k)) as [<-|Hne].
    + rewrite Hk. eexists. split; [reflexivity|]. simpl. split; [auto|].
      intros _. unfold hwid_change_allowed. right. exists env, key. auto.
    + exists row. split; [exact Hk | split; [auto | intros []; reflexivity]].
  - unfold admin_revoke. destruct (require_admin env key) eqn:Hauth;
      [row_unchanged|].
    rewrite update_row_lookup. destruct (decide (tok = k)) as [<-|Hne].
    + rewrite Hk. eexists. split; [reflexivity|]. simpl. split; [auto|].
      intros []; reflexivity.
    + exists row. split; [exact Hk | split; [auto | intros []; reflexivity]].
Qed.

Lemma table_invariants_witness :
  reachable sample_db /\
  exists row', step (ReqVerify 2 (mkVerifyRequest sample_tok "A")) sample_db !! sample_tok = Some row' /\
    (revoked sample_row = true -> revoked row' = true) /\
    (hwid row' <> hwid sample_row ->
       hwid_change_allowed (ReqVerify 2 (mkVerifyRequest sample_tok "A")) sample_tok sample_row row').
Proof.
  split; [exact sample_db_reachable|].
  apply (table_invariants sample_db (ReqVerify 2 (mkVerifyRequest sample_tok "A")) sample_tok
           sample_row sample_db_reachable); [reflexivity | exact sample_db_lookup].
Defined.

(** * Generate *)

(** The plan table as the spec lists it. *)
Definition spec_plan_table : list (string * option Z) :=
  [ ("1d", Some 86400%Z); ("3d", Some 259200%Z); ("1w", Some 604800%Z);
    ("2w", Some 1209600%Z); ("3w", Some 1814400%Z); ("6w", Some 3628800%Z);
    ("1m", Some 2592000%Z); ("2m", Some 5184000%Z); ("3m", Some 7776000%Z);
    ("6m", Some 15552000%Z); ("9m", Some 23328000%Z); ("1y", Some 31536000%Z);
    ("2y", Some 63072000%Z); ("infinite", None) ].

Lemma plan_table_matches_spec : PLAN_DURATIONS = spec_plan_table.
Proof. reflexivity. Qed.

(** [OLLY-[0-9A-F]{24}] *)
Definition is_upper_hex (c : ascii) : bool :=
  let n := nat_of_ascii c in
  ((48 <=? n)%nat && (n <=? 57)%nat) || ((65 <=? n)%nat && (n <=? 70)%nat).

Fixpoint all_upper_hex (s : string) : bool :=
  match s with
  | EmptyString => true
  | String c s' => is_upper_hex c && all_upper_hex s'
  end.

Definition token_format (s : string) : Prop :=
  exists h, s = "OLLY-" ++ h /\ String.length h = 24%nat /\ all_upper_hex h = true.

Lemma byte_upper_hex (b : byte) :
  is_upper_hex (upper_ascii (hexdigit (Byte.to_nat b / 16))) &&
  is_upper_hex (upper_ascii (hexdigit (Byte.to_nat b mod 16))) = true.
Proof. destruct b; reflexivity. Qed.

Lemma upper_token_hex (rnd : list byte) :
  String.length (upper (token_hex rnd)) = (2 * length rnd)%nat /\
  all_upper_hex (upper (token_hex rnd)) = true.
Proof.
  unfold upper. induction rnd as [|b rnd [IHlen IHhex]]; [split; reflexivity|].
  cbn [token_hex str_map all_upper_hex String.length length]. split.
  - rewrite IHlen. lia.
  - pose proof (byte_upper_hex b) as Hb. apply andb_prop in Hb as [H1 H2].
    rewrite H1, H2, IHhex. reflexivity.
Qed.

Lemma fresh_token_format (rnd : list byte) :
  length rnd = 12%nat -> token_format (fresh_token rnd).
Proof.
  intros Hlen. destruct (upper_token_hex rnd) as [Hl Hh].
  exists (upper (token_hex rnd)). split; [reflexivity|]. split; [lia | exact Hh].
Qed.

(** C5 (counterexample): drawing again the bytes of a stored token makes the
    [INSERT] violate the primary key; the request fails and nothing is
    created. *)
Lemma generate_token_collision :
  sample_db !! fresh_token sample_rnd = Some sample_row /\
  generate 2 sample_rnd (mkGenerateRequest "1d") sample_db =
    Err (mkExc 500 "Internal Server Error").
Proof. split; [exact sample_db_lookup | vm_compute; reflexivity]. Qed.

(** C5: for a valid plan and 12 drawn bytes, if the drawn token is not
    stored yet, [generate] inserts exactly one row under the token [OLLY-] +
    24 uppercase hex digits, with null hwid, not revoked, and [expires_at] the
    current time plus the plan's duration from the spec's table (null for
    "infinite"; the sum [time.time() + duration] is taken exactly, without
    the rounding of float addition), and returns that token, the lowercased
    plan and that expiry; if the drawn token is already stored, the
    [INSERT] fails, the request answers 500 and the table is unchanged. *)
Theorem generate_spec (now : Q) (rnd : list byte) (plan : string)
    (db : gmap string Token) (d : option Z) :
  length rnd = 12%nat -> plan_lookup (lower plan) PLAN_DURATIONS = Some d ->
  let ea := match d with Some d => Some (now + inject_Z d)%Q | None => None end in
  token_format (fresh_token rnd) /\
  plan_lookup (lower plan) spec_plan_table = Some d /\
  (db !! fresh_token rnd = None ->
   generate now rnd (mkGenerateRequest plan) db =
     Ok (RGenerate (fresh_token rnd) (lower plan) ea)
        (<[fresh_token rnd := mkToken None ea false]> db)) /\
  (forall row, db !! fresh_token rnd = Some row ->
   generate now rnd (mkGenerateRequest plan) db = Err (mkExc 500 "Internal Server Error") /\
   step (ReqGenerate now rnd (mkGenerateRequest plan)) db = db).
Proof.
  intros Hlen Hplan ea. split; [|split; [|split]].
  - apply fresh_token_format, Hlen.
  - rewrite <- plan_table_matches_spec. exact Hplan.
  - intros Hfresh. unfold generate; cbn [gr_plan]. rewrite Hplan. cbv zeta.
    rewrite Hfresh. reflexivity.
  - intros row Hrow. unfold step, handle, generate; cbn [gr_plan]. rewrite Hplan.
    cbv zeta. rewrite Hrow. split; reflexivity.
Qed.

Lemma generate_spec_witness :
  length sample_rnd = 12%nat /\
  plan_lookup (lower "1D") PLAN_DURATIONS = Some (Some 86400%Z) /\
  sample_db !! fresh_token sample_rnd = Some sample_row /\
  generate 2 sample_rnd (mkGenerateRequest "1D") sample_db =
    Err (mkExc 500 "Internal Server Error") /\
  step (ReqGenerate 2 sample_rnd (mkGenerateRequest "1D")) sample_db = sample_db.
Proof.
  split; [reflexivity|]. split; [reflexivity|]. split; [exact sample_db_lookup|].
  destruct (generate_spec 2 sample_rnd "1D" sample_db (Some 86400%Z)) as (_ & _ & _ & H);
    [reflexivity | reflexivity |].
  exact (H sample_row sample_db_lookup).
Defined.

Lemma string_app_assoc (a b c : string) : (a ++ b) ++ c = a ++ (b ++ c).
Proof.
  induction a as [|x a IH]; [reflexivity|].
  exact (f_equal (String x) IH).
Qed.

Lemma string_app_empty_r (a : string) : a ++ "" = a.
Proof.
  induction a as [|x a IH]; [reflexivity|].
  exact (f_equal (String x) IH).
Qed.

Lemma join_contains (sep x : string) (xs : list string) :
  In x xs -> exists pre post, join sep xs = pre ++ x ++ post.
Proof.
  induction xs as [|y xs IH]; [intros []|].
  intros Hin. destruct xs as [|z xs'].
  - destruct Hin as [<-|[]]. exists "", "". exact (eq_sym (string_app_empty_r _)).
  - destruct Hin as [<-|Hin].
    + exists "", (sep ++ join sep (z :: xs')). reflexivity.
    + destruct (IH Hin) as (pre & post & Hj).
      exists (y ++ sep ++ pre), post.
      change (join sep (y :: z :: xs')) with (y ++ sep ++ join sep (z :: xs')).
      rewrite Hj, !string_app_assoc. reflexivity.
Qed.

Lemma plan_lookup_none (plan : string) (tbl : list (string * option Z)) :
  plan_lookup plan tbl = None <-> ~ In plan (map fst tbl).
Proof.
  induction tbl as [|[k d] tbl IH]; simpl; [tauto|].
  destruct (String.eqb k plan) eqn:E.
  - apply String.eqb_eq in E. split; [discriminate | intros H; exfalso; auto].
  - apply String.eqb_neq in E. rewrite IH. tauto.
Qed.

(** C7: [generate] fails with 400 exactly when the lowercased plan is not a
    key of [PLAN_DURATIONS]; the 400 message contains every key, and the
    table is left unchanged. *)
Theorem generate_invalid_plan (now : Q) (rnd : list byte) (plan : string)
    (db : gmap string Token) :
  ((exists e, generate now rnd (mkGenerateRequest plan) db = Err e /\ status_code e = 400%Z) <->
   ~ In (lower plan) plan_keys) /\
  (~ In (lower plan) plan_keys ->
     generate now rnd (mkGenerateRequest plan) db = Err (mkExc 400 invalid_plan_detail) /\
     step (ReqGenerate now rnd (mkGenerateRequest plan)) db = db) /\
  (forall k, In k plan_keys -> exists pre post, invalid_plan_detail = pre ++ k ++ post).
Proof.
  unfold plan_keys. split; [|split].
  - rewrite <- plan_lookup_none. unfold generate; cbn [gr_plan].
    destruct (plan_lookup (lower plan) PLAN_DURATIONS); cbv zeta.
    + split; [|discriminate].
      destruct (db !! fresh_token rnd); intros (e & [= <-] & He); discriminate.
    + split; [reflexivity|]. intros _. eexists. split; reflexivity.
  - rewrite <- plan_lookup_none. intros Hnone.
    unfold step, handle, generate; cbn [gr_plan]. rewrite Hnone. split; reflexivity.
  - intros k Hk. destruct (join_contains ", " k _ Hk) as (pre & post & Hj).
    exists ("Invalid plan. Valid plans: " ++ pre), post.
    unfold invalid_plan_detail, plan_keys. rewrite Hj, string_app_assoc. reflexivity.
Qed.

(** * Further properties of the handlers *)

(** ** Frame of a single request on a stored row *)

Definition authenticated_unbind_of (k : string) (req : Request) : Prop :=
  match req with
  | ReqAdminUnbind environ hdr tok => tok = k /\ require_admin environ hdr = None
  | _ => False
  end.

Ltac row_kept :=
  match goal with
  | Hk : ?db !! ?k = Some ?row |- exists row', ?db !! ?k = Some row' /\ _ =>
      exists row; split; [exact Hk | split; [reflexivity | split; [auto | auto]]]
  end.

Lemma step_row_frame (req : Request) (db : gmap string Token) (k : string) (row : Token) :
  db !! k = Some row ->
  exists row', step req db !! k = Some row' /\
    expires_at row' = expires_at row /\
    (revoked row = true -> revoked row' = true) /\
    (hwid row <> None -> ~ authenticated_unbind_of k req -> hwid row' = hwid row).
Proof.
  intros Hk. unfold step, handle.
  destruct req as [now data|now rnd data|env key now tok|env key tok|env key tok].
  - unfold verify. destruct (db !! vr_token data) as [r|] eqn:Er; [|row_kept].
    destruct (revoked r) eqn:Hrev; [row_kept|].
    destruct (expired_check now (expires_at r)); [row_kept|].
    destruct (hwid r) as [b|] eqn:Hb; [destruct (negb _); row_kept|].
    destruct (decide (vr_token data = k)) as [<-|Hne].
    + rewrite Hk in Er. injection Er as <-.
      eexists. rewrite lookup_insert_eq. split; [reflexivity|]. simpl.
      split; [reflexivity|]. split; [intros ?; congruence|]. intros []; exact Hb.
    + rewrite lookup_insert_ne by exact Hne. row_kept.
  - unfold generate. destruct (plan_lookup _ _); [|row_kept].
    cbv zeta. destruct (db !! fresh_token rnd) eqn:Ef; [row_kept|].
    rewrite lookup_insert_ne by (intros E; rewrite E in Ef; congruence). row_kept.
  - unfold admin_verify.
    destruct (require_admin env key); [|destruct (db !! tok)]; row_kept.
  - unfold admin_unbind. destruct (require_admin env key) eqn:Hauth; [row_kept|].
    rewrite update_row_lookup. destruct (decide (tok = k)) as [<-|Hne]; [|row_kept].
    rewrite Hk. eexists. split; [reflexivity|]. simpl.
    split; [reflexivity|]. split; [auto|]. intros _ Hno. exfalso. apply Hno. simpl. auto.
  - unfold admin_revoke. destruct (require_admin env key) eqn:Hauth; [row_kept|].
    rewrite update_row_lookup. destruct (decide (tok = k)) as [<-|Hne]; [|row_kept].
    rewrite Hk. eexists. split; [reflexivity|]. simpl. auto.
Qed.

Lemma run_row_frame (reqs : list Request) (db : gmap string Token) (k : string) (row : Token) :
  db !! k = Some row ->
  exists row', run reqs db !! k = Some row' /\
    expires_at row' = expires_at row /\
    (revoked row = true -> revoked row' = true) /\
    (hwid row <> None -> Forall (fun req => ~ authenticated_unbind_of k req) reqs ->
     hwid row' = hwid row).
Proof.
  revert db row. induction reqs as [|req reqs IH]; intros db row Hk; simpl.
  - exists row. auto.
  - destruct (step_row_frame req db k row Hk) as (r1 & H1 & Hea1 & Hrev1 & Hh1).
    destruct (IH _ r1 H1) as (r2 & H2 & Hea2 & Hrev2 & Hh2).
    exists r2. split; [exact H2|]. split; [congruence|]. split; [auto|].
    intros Hsome Hall. inversion Hall as [|? ? Hnot Hall']; subst.
    rewrite Hh2, Hh1; auto. rewrite Hh1; auto.
Qed.

(** X1: across any sequence of requests, a stored row stays stored under its
    token, keeps its [expires_at], and stays revoked once revoked. *)
Theorem run_keeps_row (reqs : list Request) (db : gmap string Token) (k : string)
    (row : Token) :
  db !! k = Some row ->
  exists row', run reqs db !! k = Some row' /\ expires_at row' = expires_at row /\
    (revoked row = true -> revoked row' = true).
Proof.
  intros Hk. destruct (run_row_frame reqs db k row Hk) as (row' & H & Hea & Hrev & _).
  eauto.
Qed.

(** X2: a bound hwid stays bound to the same value across any sequence of
    requests that contains no authenticated [/admin/unbind] of that token. *)
Theorem run_keeps_bound_hwid (reqs : list Request) (db : gmap string Token) (k h : string)
    (row : Token) :
  db !! k = Some row -> hwid row = Some h ->
  Forall (fun req => ~ authenticated_unbind_of k req) reqs ->
  exists row', run reqs db !! k = Some row' /\ hwid row' = Some h.
Proof.
  intros Hk Hh Hall. destruct (run_row_frame reqs db k row Hk) as (row' & H & _ & _ & Hhw).
  exists row'. split; [exact H|]. rewrite Hhw; [exact Hh | congruence | exact Hall].
Qed.

(** X3: once an authenticated [/admin/revoke] has hit a stored token,
    every later [/verify] of it fails with 403 "Token revoked", whatever
    requests ran in between, at any time and with any hwid. *)
Theorem revoke_is_final (environ : gmap string string) (hdr : option string)
    (k h : string) (db : gmap string Token) (row : Token) (reqs : list Request) (now : Q) :
  require_admin environ hdr = None -> db !! k = Some row ->
  verify now (mkVerifyRequest k h) (run reqs (step (ReqAdminRevoke environ hdr k) db)) =
  Err (mkExc 403 "Token revoked").
Proof.
  intros Hauth Hk.
  assert (H1 : step (ReqAdminRevoke environ hdr k) db !! k =
               Some (mkToken (hwid row) (expires_at row) true)).
  { unfold step, handle, admin_revoke. rewrite Hauth, update_row_lookup.
    rewrite decide_True by reflexivity. rewrite Hk. reflexivity. }
  destruct (run_keeps_row reqs _ k _ H1) as (row' & H2 & _ & Hrev).
  unfold verify; simpl. rewrite H2, Hrev by reflexivity. reflexivity.
Qed.

(** X4: a token created with the "infinite" plan never fails [/verify]
    with "Token expired", whatever requests ran since, at any time. *)
Theorem infinite_never_expires (now0 now : Q) (rnd : list byte) (plan h : string)
    (db db1 : gmap string Token) (resp : Response) (reqs : list Request) :
  lower plan = "infinite" ->
  generate now0 rnd (mkGenerateRequest plan) db = Ok resp db1 ->
  verify now (mkVerifyRequest (fresh_token rnd) h) (run reqs db1) <>
  Err (mkExc 403 "Token expired").
Proof.
  intros Hplan Hgen. unfold generate in Hgen; cbn [gr_plan] in Hgen.
  rewrite Hplan in Hgen. simpl in Hgen.
  destruct (db !! fresh_token rnd); [discriminate|]. injection Hgen as _ Hdb1.
  assert (H1 : db1 !! fresh_token rnd = Some (mkToken None None false)).
  { rewrite <- Hdb1. apply lookup_insert_eq. }
  destruct (run_keeps_row reqs _ _ _ H1) as (row' & H2 & Hea & _).
  unfold verify; simpl. rewrite H2. simpl in Hea. rewrite Hea. simpl.
  destruct (revoked row'); [discriminate|].
  destruct (hwid row') as [b|]; [destruct (negb _)|]; discriminate.
Qed.

(** ** Verify *)

(** X5: a successful [/verify] answers [{"status": "ok"}] and leaves the
    token stored, not revoked, and bound to the supplied hwid. *)
Theorem verify_ok_binds (now : Q) (data : VerifyRequest) (db db' : gmap string Token)
    (resp : Response) :
  verify now data db = Ok resp db' ->
  resp = RStatus "ok" /\
  exists row', db' !! vr_token data = Some row' /\ hwid row' = Some (vr_hwid data) /\
    revoked row' = false /\
    (forall k, k <> vr_token data -> db' !! k = db !! k).
Proof.
  unfold verify. destruct (db !! vr_token data) as [row|] eqn:Hrow; [|discriminate].
  destruct (revoked row) eqn:Hrev; [discriminate|].
  destruct (expired_check now (expires_at row)); [discriminate|].
  destruct (hwid row) as [b|] eqn:Hb.
  - destruct (String.eqb b (vr_hwid data)) eqn:Ebh; simpl; [|discriminate].
    intros [= <- <-]. split; [reflexivity|]. exists row.
    apply String.eqb_eq in Ebh. subst b. auto.
  - intros [= <- <-]. split; [reflexivity|]. eexists.
    rewrite lookup_insert_eq. split; [reflexivity|]. simpl. split; [reflexivity|].
    split; [reflexivity|]. intros k Hk. apply lookup_insert_ne. congruence.
Qed.

(** X6: repeating a successful [/verify] with the same token, hwid and
    clock succeeds again and changes nothing. *)
Theorem verify_repeat (now : Q) (data : VerifyRequest) (db db' : gmap string Token)
    (resp : Response) :
  verify now data db = Ok resp db' -> verify now data db' = Ok resp db'.
Proof.
  unfold verify. destruct (db !! vr_token data) as [row|] eqn:Hrow; [|discriminate].
  destruct (revoked row) eqn:Hrev; [discriminate|].
  destruct (expired_check now (expires_at row)) eqn:Hexp; [discriminate|].
  destruct (hwid row) as [b|] eqn:Hb.
  - destruct (String.eqb b (vr_hwid data)) eqn:Ebh; simpl; [|discriminate].
    intros [= <- <-]. rewrite Hrow, Hrev, Hexp, Hb, Ebh. reflexivity.
  - intros [= <- <-]. rewrite lookup_insert_eq. simpl. rewrite ?Hrev, Hexp, String.eqb_refl.
    reflexivity.
Qed.

(** X7: after an authenticated [/admin/unbind] of a stored token that is
    neither revoked nor expired, [/verify] with any hwid succeeds and binds
    that hwid. *)
Theorem unbind_then_rebind (environ : gmap string string) (hdr : option string)
    (k h : string) (now : Q) (db : gmap string Token) (row : Token) :
  require_admin environ hdr = None -> db !! k = Some row -> revoked row = false ->
  is_expired now (expires_at row) = false ->
  let db1 := step (ReqAdminUnbind environ hdr k) db in
  verify now (mkVerifyRequest k h) db1 =
  Ok (RStatus "ok") (<[k := mkToken (Some h) (expires_at row) false]> db1).
Proof.
  intros Hauth Hk Hrev Hexp db1.
  assert (H1 : db1 !! k = Some (mkToken None (expires_at row) (revoked row))).
  { subst db1. unfold step, handle, admin_unbind. rewrite Hauth, update_row_lookup.
    rewrite decide_True by reflexivity. rewrite Hk. reflexivity. }
  unfold verify; simpl. rewrite H1. simpl. rewrite Hrev.
  rewrite (expired_check_not_expired now _ Hexp). reflexivity.
Qed.

(** ** Verify and inspection agree on expiry *)

Lemma py_int_nonpos (q : Q) : (q <= 0)%Q -> (py_int q <= 0)%Z.
Proof.
  destruct q as [n d]. unfold Qle, py_int; simpl. intros Hn.
  assert (n <= 0)%Z as Hn' by lia.
  replace n with (- (- n))%Z by lia. rewrite Z.quot_opp_l by lia.
  assert (0 <= Z.quot (- n) (Zpos d))%Z by (apply Z.quot_pos; lia). lia.
Qed.

(** X8: when [/verify] reports "Token expired", an authenticated
    [/admin/verify] of the same token at the same time reports
    [seconds_remaining] = 0. *)
Theorem expired_inspect_zero (environ : gmap string string) (hdr : option string)
    (now : Q) (k h : string) (db : gmap string Token) (row : Token) :
  require_admin environ hdr = None -> db !! k = Some row ->
  verify now (mkVerifyRequest k h) db = Err (mkExc 403 "Token expired") ->
  admin_verify environ hdr now k db =
  Ok (RInspect k (hwid row) (revoked row) (expires_at row) (Some 0%Z)) db.
Proof.
  intros Hauth Hk. unfold verify, admin_verify; simpl. rewrite Hk, Hauth.
  destruct (revoked row); [discriminate|].
  unfold expired_check. destruct (expires_at row) as [e|]; simpl.
  - destruct (truthy e) eqn:Ht; simpl.
    + destruct (Qle_bool now e) eqn:Hle; simpl.
      * destruct (hwid row) as [b|]; [destruct (negb _)|]; discriminate.
      * intros _. f_equal. f_equal. f_equal.
        assert (Hlt : (e < now)%Q).
        { apply Qnot_le_lt. intros H. apply Qle_bool_iff in H. congruence. }
        assert (py_int (e - now) <= 0)%Z by (apply py_int_nonpos; lra). lia.
    + destruct (hwid row) as [b|]; [destruct (negb _)|]; discriminate.
  - destruct (hwid row) as [b|]; [destruct (negb _)|]; discriminate.
Qed.

(** ** The token encodes the drawn bytes *)

(** Value of an uppercase hex digit. *)
Definition hex_value (c : ascii) : option nat :=
  let n := nat_of_ascii c in
  if (48 <=? n)%nat && (n <=? 57)%nat then Some (n - 48)%nat
  else if (65 <=? n)%nat && (n <=? 70)%nat then Some (n - 55)%nat
  else None.

Definition hex_byte (hi lo : ascii) : option byte :=
  match hex_value hi, hex_value lo with
  | Some h, Some l => Byte.of_nat (16 * h + l)
  | _, _ => None
  end.

Fixpoint hex_decode (s : string) : option (list byte) :=
  match s with
  | EmptyString => Some []
  | String hi (String lo s') =>
      match hex_byte hi lo, hex_decode s' with
      | Some b, Some bs => Some (b :: bs)
      | _, _ => None
      end
  | String _ EmptyString => None
  end.

Lemma hex_byte_digits (b : byte) :
  hex_byte (upper_ascii (hexdigit (Byte.to_nat b / 16)))
           (upper_ascii (hexdigit (Byte.to_nat b mod 16))) = Some b.
Proof. destruct b; reflexivity. Qed.

Lemma hex_decode_upper_token_hex (rnd : list byte) :
  hex_decode (upper (token_hex rnd)) = Some rnd.
Proof.
  unfold upper. induction rnd as [|b rnd IH]; [reflexivity|].
  cbn [token_hex str_map hex_decode]. rewrite hex_byte_digits, IH. reflexivity.
Qed.

(** X10: the token [generate] builds determines the random bytes it was
    built from: the 24 characters after "OLLY-" decode back to the 12 bytes,
    so two different draws never give the same token string. *)
Theorem fresh_token_injective (rnd1 rnd2 : list byte) :
  hex_decode (substring 5 (String.length (fresh_token rnd1) - 5) (fresh_token rnd1)) =
    Some rnd1 /\
  (fresh_token rnd1 = fresh_token rnd2 -> rnd1 = rnd2).
Proof.
  assert (Hsub : forall rnd, substring 5 (String.length (fresh_token rnd) - 5) (fresh_token rnd)
                             = upper (token_hex rnd)).
  { intros rnd. unfold fresh_token. generalize (upper (token_hex rnd)). clear.
    intros s.
    change ("OLLY-" ++ s) with
      (String "O"%char (String "L"%char (String "L"%char (String "Y"%char
        (String "-"%char s))))).
    simpl. rewrite Nat.sub_0_r.
    induction s as [|c s IH]; [reflexivity|]. simpl. rewrite IH. reflexivity. }
  split.
  - rewrite Hsub. apply hex_decode_upper_token_hex.
  - intros Heq. apply (f_equal (fun t => hex_decode (substring 5 (String.length t - 5) t))) in Heq.
    rewrite !Hsub, !hex_decode_upper_token_hex in Heq. congruence.
Qed.

(** ** Concrete runs *)

Definition sample_bound_db : gmap string Token :=
  step (ReqVerify 2 (mkVerifyRequest sample_tok "A")) sample_db.

Definition sample_bound_row : Token := mkToken (Some "A") (expires_at sample_row) false.

Lemma sample_bound_lookup : sample_bound_db !! sample_tok = Some sample_bound_row.
Proof. vm_compute. reflexivity. Qed.

Lemma sample_verify_ok :
  verify 2 (mkVerifyRequest sample_tok "A") sample_db = Ok (RStatus "ok") sample_bound_db.
Proof. vm_compute. reflexivity. Qed.

Lemma run_keeps_row_witness :
  sample_db !! sample_tok = Some sample_row /\
  exists row', run [ReqAdminRevoke sample_environ (Some "s3cret") sample_tok;
                    ReqVerify 2 (mkVerifyRequest sample_tok "A")] sample_db !! sample_tok = Some row' /\
    expires_at row' = expires_at sample_row /\ (revoked sample_row = true -> revoked row' = true).
Proof.
  split; [exact sample_db_lookup|].
  apply (run_keeps_row _ sample_db sample_tok sample_row sample_db_lookup).
Defined.

Lemma run_keeps_bound_hwid_witness :
  sample_bound_db !! sample_tok = Some sample_bound_row /\
  exists row', run [ReqVerify 3 (mkVerifyRequest sample_tok "B");
                    ReqAdminRevoke sample_environ (Some "s3cret") sample_tok]
                   sample_bound_db !! sample_tok = Some row' /\ hwid row' = Some "A".
Proof.
  split; [exact sample_bound_lookup|].
  apply (run_keeps_bound_hwid _ sample_bound_db sample_tok "A" sample_bound_row
           sample_bound_lookup); [reflexivity|].
  repeat constructor; simpl; tauto.
Defined.

Lemma revoke_is_final_witness :
  require_admin sample_environ (Some "s3cret") = None /\
  sample_db !! sample_tok = Some sample_row /\
  verify 2 (mkVerifyRequest sample_tok "A")
    (run [ReqAdminUnbind sample_environ (Some "s3cret") sample_tok]
       (step (ReqAdminRevoke sample_environ (Some "s3cret") sample_tok) sample_db)) =
  Err (mkExc 403 "Token revoked").
Proof.
  split; [reflexivity|]. split; [exact sample_db_lookup|].
  apply (revoke_is_final sample_environ (Some "s3cret") sample_tok "A" sample_db sample_row);
    [reflexivity | exact sample_db_lookup].
Defined.

Lemma infinite_never_expires_witness :
  lower "INFINITE" = "infinite" /\
  generate 1 sample_rnd (mkGenerateRequest "INFINITE") ∅ =
    Ok (RGenerate sample_tok "infinite" None) (<[sample_tok := mkToken None None false]> ∅) /\
  verify 1000000000 (mkVerifyRequest (fresh_token sample_rnd) "A")
    (run [] (<[sample_tok := mkToken None None false]> ∅)) <> Err (mkExc 403 "Token expired").
Proof.
  assert (Hgen : generate 1 sample_rnd (mkGenerateRequest "INFINITE") ∅ =
    Ok (RGenerate sample_tok "infinite" None) (<[sample_tok := mkToken None None false]> ∅))
    by (vm_compute; reflexivity).
  split; [reflexivity|]. split; [exact Hgen|].
  exact (infinite_never_expires 1 1000000000 sample_rnd "INFINITE" "A" ∅ _ _ [] eq_refl Hgen).
Defined.

Lemma verify_ok_binds_witness :
  verify 2 (mkVerifyRequest sample_tok "A") sample_db = Ok (RStatus "ok") sample_bound_db /\
  RStatus "ok" = RStatus "ok" /\
  exists row', sample_bound_db !! sample_tok = Some row' /\ hwid row' = Some "A" /\
    revoked row' = false /\
    (forall k, k <> sample_tok -> sample_bound_db !! k = sample_db !! k).
Proof.
  split; [exact sample_verify_ok|].
  exact (verify_ok_binds 2 (mkVerifyRequest sample_tok "A") sample_db sample_bound_db _
           sample_verify_ok).
Defined.

Lemma verify_repeat_witness :
  verify 2 (mkVerifyRequest sample_tok "A") sample_db = Ok (RStatus "ok") sample_bound_db /\
  verify 2 (mkVerifyRequest sample_tok "A") sample_bound_db = Ok (RStatus "ok") sample_bound_db.
Proof.
  split; [exact sample_verify_ok|].
  exact (verify_repeat 2 _ sample_db sample_bound_db _ sample_verify_ok).
Defined.

Lemma unbind_then_rebind_witness :
  require_admin sample_environ (Some "s3cret") = None /\
  sample_bound_db !! sample_tok = Some sample_bound_row /\
  revoked sample_bound_row = false /\ is_expired 3 (expires_at sample_bound_row) = false /\
  verify 3 (mkVerifyRequest sample_tok "B")
    (step (ReqAdminUnbind sample_environ (Some "s3cret") sample_tok) sample_bound_db) =
  Ok (RStatus "ok")
     (<[sample_tok := mkToken (Some "B") (expires_at sample_bound_row) false]>
        (step (ReqAdminUnbind sample_environ (Some "s3cret") sample_tok) sample_bound_db)).
Proof.
  split; [reflexivity|]. split; [exact sample_bound_lookup|].
  split; [reflexivity|]. split; [reflexivity|].
  apply (unbind_then_rebind sample_environ (Some "s3cret") sample_tok "B" 3 sample_bound_db
           sample_bound_row); [reflexivity | exact sample_bound_lookup | reflexivity | reflexivity].
Defined.

Lemma expired_inspect_zero_witness :
  verify 86402 (mkVerifyRequest sample_tok "A") sample_db = Err (mkExc 403 "Token expired") /\
  admin_verify sample_environ (Some "s3cret") 86402 sample_tok sample_db =
  Ok (RInspect sample_tok (hwid sample_row) (revoked sample_row) (expires_at sample_row)
        (Some 0%Z)) sample_db.
Proof.
  assert (Hv : verify 86402 (mkVerifyRequest sample_tok "A") sample_db =
               Err (mkExc 403 "Token expired")) by (vm_compute; reflexivity).
  split; [exact Hv|].
  exact (expired_inspect_zero sample_environ (Some "s3cret") 86402 sample_tok "A" sample_db
           sample_row eq_refl sample_db_lookup Hv).
Defined.
